(** * noa engine core (index.js): a shallow embedding

    The file embeds the orchestrator of the voxel engine: the constructor,
    the fixed-step [tick], the interpolated [render], the block accessors
    and the picking / targeting pipeline.

    Everything index.js calls in another module (the subsystems under
    ./lib, the player entity, the raycast primitive, gl-vec3, the event
    emitter, the browser's window) is a command of type [Cmd R]; engine
    methods are programs over these commands, and a run is taken against
    an arbitrary handler that owns the collaborators' state.  JavaScript
    numbers are IEEE binary64, so they are Rocq's primitive floats. *)

From Stdlib Require Import List String Bool Arith Lia.
From Stdlib Require Import Floats.PrimFloat.
Import ListNotations.

Set Implicit Arguments.
Set Warnings "-inexact-float,-register-all".

(* ===================================================================== *)
(** ** JavaScript values *)
(* ===================================================================== *)

Module JS.

(** The values that flow through index.js: primitives and arrays.  Objects
    with named fields (options, pick results, the camera vector) are
    records of their own below. *)
Inductive JSVal : Type :=
| VUndefined
| VNull
| VBool (b : bool)
| VNum (f : float)
| VStr (s : string)
| VArr (elems : list JSVal).

(** ToBoolean: undefined, null, false, +0, -0, NaN and the empty string are
    falsy; every array is truthy. *)
Definition truthy (v : JSVal) : bool :=
  match v with
  | VUndefined | VNull => false
  | VBool b => b
  | VNum f => negb (f =? 0)%float && (f =? f)%float
  | VStr s => negb (String.eqb s EmptyString)
  | VArr _ => true
  end.

(** [v === 0]: strict equality with the number zero (IEEE equality, so -0
    qualifies and NaN does not); no other type is ever [=== 0]. *)
Definition strict_eq_zero (v : JSVal) : bool :=
  match v with
  | VNum f => (f =? 0)%float
  | _ => false
  end.

(** [v === null]. *)
Definition is_null (v : JSVal) : bool :=
  match v with VNull => true | _ => false end.

(** [v == null]: null or undefined. *)
Definition nullish (v : JSVal) : bool :=
  match v with VUndefined | VNull => true | _ => false end.

Fixpoint float_of_nat (n : nat) : float :=
  match n with
  | O => 0%float
  | S m => (float_of_nat m + 1)%float
  end.

(** [arr[i]] on a value that is not null or undefined: an array element, a
    one-character string, or undefined. *)
Definition get_index (arr : JSVal) (i : nat) : JSVal :=
  match arr with
  | VArr l => nth i l VUndefined
  | VStr s => match String.get i s with
              | Some c => VStr (String c EmptyString)
              | None => VUndefined
              end
  | _ => VUndefined
  end.

(** An array of numbers as a value. *)
Definition num_array (l : list float) : JSVal := VArr (map VNum l).

(** [l[i]] read as an operand of a numeric [+]: a missing index reads as
    undefined, and undefined in an addition of numbers is NaN. *)
Definition num_at (l : list float) (i : nat) : float := nth i l nan.

Definition two52 : float := 4503599627370496%float.

(** [Math.floor] on binary64.  Below 2^52 in magnitude, adding and removing
    2^52 rounds to the nearest integer, which is then corrected downwards;
    from 2^52 on every float is an integer; zeros, infinities and NaN are
    returned as they are. *)
Definition Math_floor (x : float) : float :=
  if (x =? 0)%float then x
  else if (abs x <? two52)%float then
    let r := if (x <? 0)%float then ((x - two52) + two52)%float
             else ((x + two52) - two52)%float in
    if (x <? r)%float then (r - 1)%float else r
  else x.

End JS.
Import JS.

(* ===================================================================== *)
(** ** Collaborator interface *)
(* ===================================================================== *)

(** A three-component vector handed out by a collaborator (an entity
    position, the extent [bb.vec] of a bounding box, babylon's camera
    vector with fields x, y, z). *)
Record Vec3 : Type := mkVec3 { v0 : float; v1 : float; v2 : float }.

Definition vec3_to_js (v : Vec3) : JSVal :=
  VArr [VNum (v0 v); VNum (v1 v); VNum (v2 v)].

(** The eight subsystems created by the factories required at the top of
    index.js. *)
Inductive Subsystem : Type :=
| Container | Inputs | Registry | World | Rendering | Physics | Controls
| Entities.

(** The [getBlock] callback a raycast closure is bound to. *)
Inductive VoxelQuery : Type :=
| World_getBlockID_bound
| World_getBlockSolidity_bound.

(** What one raycast call leaves behind: its return value and the contents
    of the two output buffers, which the caller passed in empty. *)
Record RayHit : Type := mkRayHit {
  ray_block : JSVal;
  ray_hitPos : list float;
  ray_hitNorm : list float
}.

(** User options as the constructor reads them; [VUndefined] and [None]
    stand for an absent key. *)
Record Opts : Type := mkOpts {
  opt_playerHeight : JSVal;
  opt_playerWidth : JSVal;
  opt_playerStart : JSVal;
  opt_playerAutoStep : JSVal;
  opt_tickRate : option float;
  opt_blockTestDistance : JSVal
}.

(** The resolved options object: the module-level [defaults] after
    [extend] has merged the user's options into it. *)
Record Config : Type := mkConfig {
  playerHeight : JSVal;
  playerWidth : JSVal;
  playerStart : JSVal;
  playerAutoStep : JSVal;
  tickRate : float;
  cfg_blockTestDistance : JSVal
}.

(** Calls that leave index.js, indexed by the type of their answer.  Every
    factory receives the engine object and the resolved options; Inputs
    also receives the container's element and Rendering its canvas. *)
Inductive Cmd : Type -> Type :=
(* factories, in the order of the require lines *)
| create (sub : Subsystem) (opts : Config) : Cmd unit
(* constructor wiring *)
| Controls_setCameraAccessor : Cmd unit
| Entities_add (pos width height mesh meshOffset : JSVal)
    (doPhysics collideTerrain collideEntities shadow : bool) : Cmd unit
| Player_body_set_gravityMultiplier (g : float) : Cmd unit
| Player_body_set_autoStep (v : JSVal) : Cmd unit
| Player_body_set_onStep : Cmd unit
| Controls_setTarget : Cmd unit
| Window_set (name : string) : Cmd unit
| Inputs_bind (action key : string) : Cmd unit
| Inputs_down_on (action : string) : Cmd unit
(* tick *)
| World_tick (dt : float) : Cmd unit
| Rendering_tick (dt : float) : Cmd unit
| Controls_tickZoom (dt : float) : Cmd unit
| Controls_tickPhysics (dt : float) : Cmd unit
| Physics_tick (dt : float) : Cmd unit
| Entities_tick (dt : float) : Cmd unit
| emit (event : string) (dt : float) : Cmd unit
(* render *)
| Container_hasPointerLock : Cmd JSVal
| Container_supportsPointerLock : Cmd JSVal
| Inputs_state_fire : Cmd JSVal
| Controls_tickCamera : Cmd unit
| Inputs_state_set_dy (v : float) : Cmd unit
| Inputs_state_set_dx (v : float) : Cmd unit
| Entities_updateEntitiesForRender (dt : float) : Cmd unit
| Rendering_render (dt : float) : Cmd unit
(* blocks *)
| World_getBlockID (x y z : JSVal) : Cmd JSVal
| World_setBlockID (id x y z : JSVal) : Cmd unit
| Entities_isTerrainBlocked (x y z : JSVal) : Cmd JSVal
(* player, camera, picking *)
| Player_getPosition : Cmd Vec3
| Player_bb_vec : Cmd Vec3
| Player_set_mesh (mesh : JSVal) : Cmd unit
| Player_set_meshOffset (meshOffset : JSVal) : Cmd unit
| Rendering_getCameraVector : Cmd Vec3
| vec3_fromValues (x y z : float) : Cmd JSVal
| raycast (voxels : VoxelQuery) (pos vec dist : JSVal) : Cmd RayHit
| Rendering_highlightBlockFace (show : bool) (loc norm : JSVal) : Cmd unit.

(** One entry of a call log. *)
Inductive Call : Type :=
| call {R : Type} (c : Cmd R).

(* ===================================================================== *)
(** ** Programs over the collaborators *)
(* ===================================================================== *)

Inductive JSError : Type :=
| TypeError (msg : string).

Inductive Prog (A : Type) : Type :=
| Ret (a : A)
| Throw (e : JSError)
| Do {R : Type} (c : Cmd R) (k : R -> Prog A).

Arguments Ret {A} a.
Arguments Throw {A} e.
Arguments Do {A R} c k.

Fixpoint bind {A B : Type} (p : Prog A) (f : A -> Prog B) : Prog B :=
  match p with
  | Ret a => f a
  | Throw e => Throw e
  | Do c k => Do c (fun r => bind (k r) f)
  end.

Definition perform {R : Type} (c : Cmd R) : Prog R := Do c Ret.

Declare Scope prog_scope.
Delimit Scope prog_scope with prog.
Notation "x <- p ;; q" := (bind p (fun x => q))
  (at level 61, p at next level, right associativity) : prog_scope.
Notation "p ;; q" := (bind p (fun _ => q))
  (at level 61, right associativity) : prog_scope.
Open Scope prog_scope.

Inductive Outcome (A : Type) : Type :=
| Returned (a : A)
| Thrown (e : JSError).

Arguments Returned {A} a.
Arguments Thrown {A} e.

(** The result of running a program: the calls made, in order, the
    collaborators' state afterwards, and how the program ended. *)
Record Run (Ext A : Type) : Type := mkRun {
  trace : list Call;
  final : Ext;
  outcome : Outcome A
}.

(** A handler answers every command and moves the collaborators' state. *)
Definition Handler (Ext : Type) : Type := forall R : Type, Cmd R -> Ext -> Ext * R.

Definition after {Ext R} (h : Handler Ext) (c : Cmd R) (s : Ext) : Ext :=
  fst (h R c s).

Definition answer {Ext R} (h : Handler Ext) (c : Cmd R) (s : Ext) : R :=
  snd (h R c s).

Fixpoint run {Ext A : Type} (h : Handler Ext) (p : Prog A) (s : Ext) : Run Ext A :=
  match p with
  | Ret a => mkRun [] s (Returned a)
  | Throw e => mkRun [] s (Thrown e)
  | Do c k =>
      let rest := run h (k (answer h c s)) (after h c s) in
      mkRun (call c :: trace rest) (final rest) (outcome rest)
  end.

(** A run of [p] followed by [f]. *)
Definition run_then {Ext A B : Type} (h : Handler Ext) (r : Run Ext A)
    (f : A -> Prog B) : Run Ext B :=
  match outcome r with
  | Returned a =>
      let rest := run h (f a) (final r) in
      mkRun (trace r ++ trace rest) (final rest) (outcome rest)
  | Thrown e => mkRun (trace r) (final r) (Thrown e)
  end.

(* ===================================================================== *)
(** ** The engine *)
(* ===================================================================== *)

(** The fields of the engine object that index.js itself reads or writes
    after construction.  The two target fields are not assigned by the
    constructor, so they start out undefined. *)
Record Engine : Type := mkEngine {
  _tickRate : float;
  blockTestDistance : JSVal;
  _traceWorldRay : VoxelQuery;
  _traceWorldRayCollision : VoxelQuery;
  _blockTargetLoc : JSVal;
  _blockPlacementLoc : JSVal
}.

(** [var defaults = {...}] at module level. *)
Definition defaults : Config :=
  {| playerHeight := VNum 1.8%float;
     playerWidth := VNum 0.6%float;
     playerStart := VArr [VNum 0%float; VNum 10%float; VNum 0%float];
     playerAutoStep := VBool false;
     tickRate := 30%float;
     cfg_blockTestDistance := VUndefined |}.

Definition override (target source : JSVal) : JSVal :=
  match source with
  | VUndefined => target
  | _ => source
  end.

(** [extend(target, source)] of the extend package: every key of [source]
    whose value is not undefined is copied onto [target]; the modified
    [target] is what is returned. *)
Definition extend (target : Config) (source : Opts) : Config :=
  {| playerHeight := override (playerHeight target) (opt_playerHeight source);
     playerWidth := override (playerWidth target) (opt_playerWidth source);
     playerStart := override (playerStart target) (opt_playerStart source);
     playerAutoStep := override (playerAutoStep target) (opt_playerAutoStep source);
     tickRate := match opt_tickRate source with
                 | Some r => r
                 | None => tickRate target
                 end;
     cfg_blockTestDistance :=
       override (cfg_blockTestDistance target) (opt_blockTestDistance source) |}.

(** [function Engine(opts)].  The first argument is the current content of
    the module-level [defaults] object, which [extend] updates in place:
    the constructor returns it next to the new engine. *)
Definition Engine_new (defaults_now : Config) (user : Opts) : Prog (Config * Engine) :=
  let opts := extend defaults_now user in
  perform (create Container opts) ;;
  perform (create Inputs opts) ;;
  perform (create Registry opts) ;;
  perform (create World opts) ;;
  perform (create Rendering opts) ;;
  perform (create Physics opts) ;;
  perform (create Controls opts) ;;
  perform Controls_setCameraAccessor ;;
  perform (create Entities opts) ;;
  perform (Entities_add (playerStart opts) (playerWidth opts) (playerHeight opts)
             VNull VNull true true true true) ;;
  perform (Player_body_set_gravityMultiplier 2%float) ;;
  perform (Player_body_set_autoStep (playerAutoStep opts)) ;;
  (if truthy (playerAutoStep opts) then perform Player_body_set_onStep else Ret tt) ;;
  perform Controls_setTarget ;;
  let btd := if truthy (cfg_blockTestDistance opts)
             then cfg_blockTestDistance opts else VNum 10%float in
  perform (Window_set "noa") ;;
  perform (Window_set "ndarray") ;;
  perform (Window_set "vec3") ;;
  perform (Inputs_bind "debug" "Z") ;;
  perform (Inputs_down_on "debug") ;;
  Ret (opts,
       {| _tickRate := tickRate opts;
          blockTestDistance := btd;
          _traceWorldRay := World_getBlockID_bound;
          _traceWorldRayCollision := World_getBlockSolidity_bound;
          _blockTargetLoc := VUndefined;
          _blockPlacementLoc := VUndefined |}).

(** [x.length]: reading a property of undefined or null throws; arrays and
    strings have a length, the other primitives answer undefined. *)
Definition get_length (x : JSVal) : Prog JSVal :=
  match x with
  | VUndefined | VNull =>
      Throw (TypeError "Cannot read property 'length' of undefined")
  | VArr l => Ret (VNum (float_of_nat (List.length l)))
  | VStr s => Ret (VNum (float_of_nat (String.length s)))
  | VBool _ | VNum _ => Ret VUndefined
  end.

(** [var arr = (x.length) ? x : [x,y,z]], shared by the three block
    accessors. *)
Definition coords (x y z : JSVal) : Prog JSVal :=
  len <- get_length x ;;
  Ret (if truthy len then x else VArr [x; y; z]).

Definition getBlock (this : Engine) (x y z : JSVal) : Prog JSVal :=
  arr <- coords x y z ;;
  perform (World_getBlockID (get_index arr 0) (get_index arr 1) (get_index arr 2)).

Definition setBlock (this : Engine) (id x y z : JSVal) : Prog unit :=
  arr <- coords x y z ;;
  perform (World_setBlockID id (get_index arr 0) (get_index arr 1) (get_index arr 2)).

Definition addBlock (this : Engine) (id x y z : JSVal) : Prog unit :=
  arr <- coords x y z ;;
  blocked <- perform (Entities_isTerrainBlocked
                        (get_index arr 0) (get_index arr 1) (get_index arr 2)) ;;
  if truthy blocked then Ret tt
  else perform (World_setBlockID id (get_index arr 0) (get_index arr 1) (get_index arr 2)).

Definition getTargetBlock (this : Engine) : JSVal := _blockTargetLoc this.

Definition getTargetBlockAdjacent (this : Engine) : JSVal := _blockPlacementLoc this.

Definition getPlayerPosition (this : Engine) : Prog Vec3 :=
  perform Player_getPosition.

(** [loc[1] += height * .9] on the vector answered by [getPosition];
    whether the entity keeps a reference to that vector is decided in
    lib/entities, and the answer is taken as a value here. *)
Definition getPlayerEyePosition (this : Engine) : Prog Vec3 :=
  bbvec <- perform Player_bb_vec ;;
  let height := v1 bbvec in
  loc <- perform Player_getPosition ;;
  Ret {| v0 := v0 loc; v1 := (v1 loc + height * 0.9)%float; v2 := v2 loc |}.

Definition getCameraVector (this : Engine) : Prog JSVal :=
  v <- perform Rendering_getCameraVector ;;
  perform (vec3_fromValues (v0 v) (v1 v) (v2 v)).

(** The object literal returned by [pick]. *)
Record PickResult : Type := mkPickResult {
  block : JSVal;
  position : list float;
  normal : list float
}.

(** [pick(pos, vec, dist)]; [None] is the JavaScript null.  An argument that
    is left out is [VUndefined]. *)
Definition pick (this : Engine) (pos vec dist : JSVal) : Prog (option PickResult) :=
  if strict_eq_zero dist then Ret None
  else
    pos <- (if truthy pos then Ret pos
            else eye <- getPlayerEyePosition this ;; Ret (vec3_to_js eye)) ;;
    vec <- (if truthy vec then Ret vec else getCameraVector this) ;;
    let dist := if truthy dist then dist else blockTestDistance this in
    hit <- perform (raycast (_traceWorldRayCollision this) pos vec dist) ;;
    if truthy (ray_block hit)
    then Ret (Some {| block := ray_block hit;
                      position := ray_hitPos hit;
                      normal := ray_hitNorm hit |})
    else Ret None.

(** An assignment to the two target fields of [this]. *)
Definition set_targets (this : Engine) (target placement : JSVal) : Engine :=
  {| _tickRate := _tickRate this;
     blockTestDistance := blockTestDistance this;
     _traceWorldRay := _traceWorldRay this;
     _traceWorldRayCollision := _traceWorldRayCollision this;
     _blockTargetLoc := target;
     _blockPlacementLoc := placement |}.

Definition setBlockTargets (this : Engine) : Prog Engine :=
  result <- pick this VUndefined VUndefined VUndefined ;;
  match result with
  | Some result =>
      let loc := map Math_floor (position result) in
      let norm := normal result in
      let this := set_targets this (num_array loc)
                    (num_array [ (num_at loc 0 + num_at norm 0)%float;
                                 (num_at loc 1 + num_at norm 1)%float;
                                 (num_at loc 2 + num_at norm 2)%float ]) in
      perform (Rendering_highlightBlockFace true (num_array loc) (num_array norm)) ;;
      Ret this
  | None =>
      let this := set_targets this VNull VNull in
      perform (Rendering_highlightBlockFace false VUndefined VUndefined) ;;
      Ret this
  end.

Definition setPlayerMesh (this : Engine) (mesh meshOffset : JSVal) : Prog unit :=
  perform (Player_set_mesh mesh) ;;
  perform (Player_set_meshOffset meshOffset).

Definition tick (this : Engine) : Prog Engine :=
  let dt := _tickRate this in
  perform (World_tick dt) ;;
  perform (Rendering_tick dt) ;;
  perform (Controls_tickZoom dt) ;;
  perform (Controls_tickPhysics dt) ;;
  perform (Physics_tick dt) ;;
  this' <- setBlockTargets this ;;
  perform (Entities_tick dt) ;;
  perform (emit "tick" dt) ;;
  Ret this'.

(** The test of the [if] in [render]: [||] and [!] evaluate left to right
    and stop at the first operand that decides. *)
Definition render_moves_camera : Prog bool :=
  lock <- perform Container_hasPointerLock ;;
  if truthy lock then Ret true
  else
    supported <- perform Container_supportsPointerLock ;;
    if negb (truthy supported) then Ret true
    else
      fire <- perform Inputs_state_fire ;;
      Ret (truthy fire).

(** [a.dx = a.dy = 0] stores into dy first, then into dx. *)
Definition render (this : Engine) (framePart : float) : Prog unit :=
  let dt := (framePart * _tickRate this)%float in
  move <- render_moves_camera ;;
  (if move then perform Controls_tickCamera else Ret tt) ;;
  perform (Inputs_state_set_dy 0%float) ;;
  perform (Inputs_state_set_dx 0%float) ;;
  perform (Entities_updateEntitiesForRender dt) ;;
  perform (Rendering_render dt).

(* ===================================================================== *)
(** ** The public operations as data *)
(* ===================================================================== *)

(** One call of a method of the engine object, with its arguments. *)
Inductive Op : Type :=
| Op_tick
| Op_render (framePart : float)
| Op_getBlock (x y z : JSVal)
| Op_setBlock (id x y z : JSVal)
| Op_addBlock (id x y z : JSVal)
| Op_getTargetBlock
| Op_getTargetBlockAdjacent
| Op_getPlayerPosition
| Op_getPlayerEyePosition
| Op_getCameraVector
| Op_pick (pos vec dist : JSVal)
| Op_setBlockTargets
| Op_setPlayerMesh (mesh meshOffset : JSVal).

(** The operations whose body assigns [_blockTargetLoc] and
    [_blockPlacementLoc]: [setBlockTargets], and [tick] which calls it. *)
Definition recomputes_targets (op : Op) : bool :=
  match op with
  | Op_tick | Op_setBlockTargets => true
  | _ => false
  end.

(** The engine object after the method body has run; the value returned to
    the caller is dropped. *)
Definition exec (op : Op) (this : Engine) : Prog Engine :=
  match op with
  | Op_tick => tick this
  | Op_render framePart => render this framePart ;; Ret this
  | Op_getBlock x y z => getBlock this x y z ;; Ret this
  | Op_setBlock id x y z => setBlock this id x y z ;; Ret this
  | Op_addBlock id x y z => addBlock this id x y z ;; Ret this
  | Op_getTargetBlock => let _ := getTargetBlock this in Ret this
  | Op_getTargetBlockAdjacent => let _ := getTargetBlockAdjacent this in Ret this
  | Op_getPlayerPosition => getPlayerPosition this ;; Ret this
  | Op_getPlayerEyePosition => getPlayerEyePosition this ;; Ret this
  | Op_getCameraVector => getCameraVector this ;; Ret this
  | Op_pick pos vec dist => pick this pos vec dist ;; Ret this
  | Op_setBlockTargets => setBlockTargets this
  | Op_setPlayerMesh mesh meshOffset => setPlayerMesh this mesh meshOffset ;; Ret this
  end.

(** The engine object once a call is over.  A method that throws has
    assigned no field before the throw (only the [x.length] of the block
    accessors can throw), so the object is the one before the call. *)
Definition engine_after {Ext} (h : Handler Ext) (op : Op) (this : Engine) (s : Ext)
    : Engine :=
  match outcome (run h (exec op this) s) with
  | Returned this' => this'
  | Thrown _ => this
  end.

(** A session: calls made one after another on the same engine object. *)
Fixpoint run_ops {Ext} (h : Handler Ext) (ops : list Op) (this : Engine) (s : Ext)
    : Engine * Ext :=
  match ops with
  | [] => (this, s)
  | op :: rest =>
      run_ops h rest (engine_after h op this s) (final (run h (exec op this) s))
  end.

(** The TargetState invariant, with JavaScript's strict and loose tests
    for null. *)
Definition targets_agree (this : Engine) : Prop :=
  is_null (getTargetBlock this) = is_null (getTargetBlockAdjacent this) /\
  nullish (getTargetBlock this) = nullish (getTargetBlockAdjacent this).

(** The collaborators' state once the five subsystem ticks that precede
    targeting have run. *)
Definition before_targeting {Ext} (h : Handler Ext) (dt : float) (s : Ext) : Ext :=
  after h (Physics_tick dt)
    (after h (Controls_tickPhysics dt)
       (after h (Controls_tickZoom dt)
          (after h (Rendering_tick dt)
             (after h (World_tick dt) s)))).

(** The two ways a caller passes a voxel position to the block accessors:
    one coordinate container, or three scalars. *)
Inductive Shape : Type :=
| AsContainer
| AsScalars.

Definition at_position {A : Type} (method : JSVal -> JSVal -> JSVal -> A)
    (shape : Shape) (px py pz : float) : A :=
  match shape with
  | AsContainer => method (VArr [VNum px; VNum py; VNum pz]) VUndefined VUndefined
  | AsScalars => method (VNum px) (VNum py) (VNum pz)
  end.

(* ===================================================================== *)
(** ** Call-log predicates *)
(* ===================================================================== *)

Definition is_create (c : Call) : option Subsystem :=
  match c with
  | call (create sub _) => Some sub
  | call _ => None
  end.

(** The subsystems created during a run, in creation order. *)
Fixpoint created (t : list Call) : list Subsystem :=
  match t with
  | [] => []
  | c :: rest =>
      match is_create c with
      | Some sub => sub :: created rest
      | None => created rest
      end
  end.

Definition is_tickCamera (c : Call) : bool :=
  match c with
  | call Controls_tickCamera => true
  | call _ => false
  end.

Definition is_clear_dx (c : Call) : bool :=
  match c with
  | call (Inputs_state_set_dx _) => true
  | call _ => false
  end.

Definition is_clear_dy (c : Call) : bool :=
  match c with
  | call (Inputs_state_set_dy _) => true
  | call _ => false
  end.

Definition is_world_write (c : Call) : bool :=
  match c with
  | call (World_setBlockID _ _ _ _) => true
  | call _ => false
  end.

Definition is_raycast (c : Call) : bool :=
  match c with
  | call (raycast _ _ _ _) => true
  | call _ => false
  end.

Definition count (p : Call -> bool) (t : list Call) : nat :=
  List.length (filter p t).

Definition VoxelQuery_eqb (a b : VoxelQuery) : bool :=
  match a, b with
  | World_getBlockID_bound, World_getBlockID_bound => true
  | World_getBlockSolidity_bound, World_getBlockSolidity_bound => true
  | _, _ => false
  end.

(** A call that is no traversal, or a traversal through the closure bound
    to [q]. *)
Definition traverses_through (q : VoxelQuery) (c : Call) : bool :=
  match c with
  | call (raycast q' _ _ _) => VoxelQuery_eqb q q'
  | call _ => true
  end.

Definition is_entity_query (c : Call) : bool :=
  match c with
  | call (Entities_isTerrainBlocked _ _ _) => true
  | call _ => false
  end.

(** The cached targets as [setBlockTargets] leaves them: both null, or the
    target an array of numbers and the placement an array of three. *)
Definition targets_computed (this : Engine) : Prop :=
  (getTargetBlock this = VNull /\ getTargetBlockAdjacent this = VNull) \/
  (exists loc placement : list float,
      getTargetBlock this = num_array loc /\
      getTargetBlockAdjacent this = num_array placement /\
      List.length placement = 3).

(** How many traversals a method body starts. *)
Definition traversals (op : Op) : nat :=
  match op with
  | Op_tick | Op_setBlockTargets => 1
  | Op_pick _ _ dist => if strict_eq_zero dist then 0 else 1
  | _ => 0
  end.

(** The calls that end in a TypeError: a block accessor whose first
    argument is undefined or null. *)
Definition throws (op : Op) : bool :=
  match op with
  | Op_getBlock x _ _ | Op_setBlock _ x _ _ | Op_addBlock _ x _ _ => nullish x
  | _ => false
  end.

(** The methods whose body contains a call of World.setBlockID. *)
Definition writes_blocks (op : Op) : bool :=
  match op with
  | Op_setBlock _ _ _ _ | Op_addBlock _ _ _ _ => true
  | _ => false
  end.

(* ===================================================================== *)
(** ** A test double for the collaborators *)
(* ===================================================================== *)

Module Double.

(** Canned answers of the collaborators' queries. *)
Record Answers : Type := mkAnswers {
  ans_lock : JSVal;
  ans_supported : JSVal;
  ans_fire : JSVal;
  ans_blocked : JSVal;
  ans_block : JSVal;
  ans_position : Vec3;
  ans_bb : Vec3;
  ans_camera : Vec3;
  ans_ray : RayHit
}.

(** The double's world is the list of block writes it has received, the
    latest first. *)
Definition WorldLog : Type := list (JSVal * JSVal * JSVal * JSVal).

Definition handle (a : Answers) : Handler WorldLog :=
  fun R c w =>
    match c in Cmd R return WorldLog * R with
    | create _ _ => (w, tt)
    | Controls_setCameraAccessor => (w, tt)
    | Entities_add _ _ _ _ _ _ _ _ _ => (w, tt)
    | Player_body_set_gravityMultiplier _ => (w, tt)
    | Player_body_set_autoStep _ => (w, tt)
    | Player_body_set_onStep => (w, tt)
    | Controls_setTarget => (w, tt)
    | Window_set _ => (w, tt)
    | Inputs_bind _ _ => (w, tt)
    | Inputs_down_on _ => (w, tt)
    | World_tick _ => (w, tt)
    | Rendering_tick _ => (w, tt)
    | Controls_tickZoom _ => (w, tt)
    | Controls_tickPhysics _ => (w, tt)
    | Physics_tick _ => (w, tt)
    | Entities_tick _ => (w, tt)
    | emit _ _ => (w, tt)
    | Container_hasPointerLock => (w, ans_lock a)
    | Container_supportsPointerLock => (w, ans_supported a)
    | Inputs_state_fire => (w, ans_fire a)
    | Controls_tickCamera => (w, tt)
    | Inputs_state_set_dy _ => (w, tt)
    | Inputs_state_set_dx _ => (w, tt)
    | Entities_updateEntitiesForRender _ => (w, tt)
    | Rendering_render _ => (w, tt)
    | World_getBlockID _ _ _ => (w, ans_block a)
    | World_setBlockID id x y z => ((id, x, y, z) :: w, tt)
    | Entities_isTerrainBlocked _ _ _ => (w, ans_blocked a)
    | Player_getPosition => (w, ans_position a)
    | Player_bb_vec => (w, ans_bb a)
    | Player_set_mesh _ => (w, tt)
    | Player_set_meshOffset _ => (w, tt)
    | Rendering_getCameraVector => (w, ans_camera a)
    | vec3_fromValues x y z => (w, VArr [VNum x; VNum y; VNum z])
    | raycast _ _ _ _ => (w, ans_ray a)
    | Rendering_highlightBlockFace _ _ _ => (w, tt)
    end.



(** A player standing at the default start, looking down the negative z
    axis at a solid block whose struck face has normal (0,0,1). *)
Definition facing_block : Answers :=
  {| ans_lock := VBool false;
     ans_supported := VBool true;
     ans_fire := VBool false;
     ans_blocked := VBool false;
     ans_block := VNum 1%float;
     ans_position := mkVec3 0%float 10%float 0%float;
     ans_bb := mkVec3 0.6%float 1.8%float 0.6%float;
     ans_camera := mkVec3 0%float 0%float (-1)%float;
     ans_ray := mkRayHit (VBool true) [5.5%float; 5.25%float; 5.999%float]
                         [0%float; 0%float; 1%float] |}.

(** The same player looking into open sky. *)
Definition open_sky : Answers :=
  {| ans_lock := VBool false;
     ans_supported := VBool true;
     ans_fire := VBool false;
     ans_blocked := VBool false;
     ans_block := VNum 0%float;
     ans_position := mkVec3 0%float 10%float 0%float;
     ans_bb := mkVec3 0.6%float 1.8%float 0.6%float;
     ans_camera := mkVec3 0%float 1%float 0%float;
     ans_ray := mkRayHit (VNum 0%float) [] [] |}.

(** An entity stands in the voxel that is asked about. *)
Definition occupied : Answers :=
  {| ans_lock := VBool true;
     ans_supported := VBool true;
     ans_fire := VBool false;
     ans_blocked := VBool true;
     ans_block := VNum 0%float;
     ans_position := mkVec3 0%float 10%float 0%float;
     ans_bb := mkVec3 0.6%float 1.8%float 0.6%float;
     ans_camera := mkVec3 0%float 0%float (-1)%float;
     ans_ray := mkRayHit (VNum 0%float) [] [] |}.

Definition no_options : Opts :=
  {| opt_playerHeight := VUndefined;
     opt_playerWidth := VUndefined;
     opt_playerStart := VUndefined;
     opt_playerAutoStep := VUndefined;
     opt_tickRate := None;
     opt_blockTestDistance := VUndefined |}.

Definition with_blockTestDistance (d : JSVal) : Opts :=
  {| opt_playerHeight := VUndefined;
     opt_playerWidth := VUndefined;
     opt_playerStart := VUndefined;
     opt_playerAutoStep := VUndefined;
     opt_tickRate := None;
     opt_blockTestDistance := d |}.

(** An engine object as the constructor leaves it with default options. *)
Definition fresh_engine : Engine :=
  {| _tickRate := 30%float;
     blockTestDistance := VNum 10%float;
     _traceWorldRay := World_getBlockID_bound;
     _traceWorldRayCollision := World_getBlockSolidity_bound;
     _blockTargetLoc := VUndefined;
     _blockPlacementLoc := VUndefined |}.

End Double.

(* ===================================================================== *)
(** ** Running programs *)
(* ===================================================================== *)

Section Running.

Context {Ext : Type} (h : Handler Ext).

Lemma run_bind {A B : Type} (p : Prog A) (f : A -> Prog B) (s : Ext) :
  run h (bind p f) s = run_then h (run h p s) f.
Proof.
  revert s. induction p as [a | e | R c k IH]; intro s; cbn.
  - unfold run_then; cbn. now destruct (run h (f a) s).
  - reflexivity.
  - rewrite IH. unfold run_then; cbn.
    now destruct (outcome (run h (k (answer h c s)) (after h c s))).
Qed.

Lemma unit_answer (c : Cmd unit) (s : Ext) : answer h c s = tt.
Proof. now destruct (answer h c s). Qed.

Lemma run_perform {R : Type} (c : Cmd R) (s : Ext) :
  run h (perform c) s = mkRun [call c] (after h c s) (Returned (answer h c s)).
Proof. reflexivity. Qed.

End Running.

(** Sanity checks on the JavaScript primitives. *)
Example Math_floor_samples :
  map Math_floor [5.7; 5.999; 6; -0.5; -2.5; -3; 0.3; infinity]%float
  = [5; 5; 6; -1; -3; -3; 0; infinity]%float.
Proof. reflexivity. Qed.

Example truthy_samples :
  map truthy [VNum 0%float; VNum (-0)%float; VNum nan; VNum 10%float; VUndefined;
              VNull; VStr ""; VStr "0"; VBool false; VArr []]
  = [false; false; false; true; false; false; false; true; false; true].
Proof. reflexivity. Qed.

Example strict_eq_zero_samples :
  map strict_eq_zero [VNum 0%float; VNum (-0)%float; VNum nan; VUndefined; VNull;
                      VBool false; VStr ""]
  = [true; true; false; false; false; false; false].
Proof. reflexivity. Qed.

(* ===================================================================== *)
(** ** The simulation step *)
(* ===================================================================== *)

Section Tick.

Context {Ext : Type} (h : Handler Ext).

(** [setBlockTargets] always returns, and only the two target fields of
    the engine object differ afterwards. *)
Lemma setBlockTargets_returns (this : Engine) (s : Ext) :
  exists target placement,
    outcome (run h (setBlockTargets this) s)
    = Returned (set_targets this target placement).
Proof.
  unfold setBlockTargets, pick; cbn.
  destruct (truthy (ray_block _)); cbn; eauto.
Qed.

(** C1. [tick] has no delta parameter.  Against any collaborators, one
    tick calls World.tick, Rendering.tick, Controls.tickZoom,
    Controls.tickPhysics and Physics.tick, then everything
    [setBlockTargets] does, then Entities.tick, and last emits 'tick';
    every one of these carries dt = [_tickRate], the call returns, and the
    tick rate of the engine is the same afterwards. *)
Theorem tick_fixed_step_order (this : Engine) (s : Ext) :
  let dt := _tickRate this in
  let targeting := run h (setBlockTargets this) (before_targeting h dt s) in
  exists this',
    outcome targeting = Returned this' /\
    run h (tick this) s
    = mkRun ([call (World_tick dt); call (Rendering_tick dt);
              call (Controls_tickZoom dt); call (Controls_tickPhysics dt);
              call (Physics_tick dt)]
             ++ trace targeting
             ++ [call (Entities_tick dt); call (emit "tick" dt)])
            (after h (emit "tick" dt) (after h (Entities_tick dt) (final targeting)))
            (Returned this') /\
    _tickRate this' = dt.
Proof.
  intros dt targeting. subst dt targeting.
  destruct (setBlockTargets_returns this (before_targeting h (_tickRate this) s))
    as (target & placement & Hret).
  exists (set_targets this target placement).
  split; [exact Hret|]. split; [|reflexivity].
  unfold tick, before_targeting in *. cbn -[setBlockTargets].
  rewrite run_bind. unfold run_then.
  rewrite Hret. cbn. reflexivity.
Qed.

End Tick.

Example tick_on_open_sky :
  trace (run (Double.handle Double.open_sky) (tick Double.fresh_engine) [])
  = [call (World_tick 30%float); call (Rendering_tick 30%float);
     call (Controls_tickZoom 30%float); call (Controls_tickPhysics 30%float);
     call (Physics_tick 30%float);
     call Player_bb_vec; call Player_getPosition;
     call Rendering_getCameraVector; call (vec3_fromValues 0%float 1%float 0%float);
     call (raycast World_getBlockSolidity_bound
             (VArr [VNum 0%float; VNum (10 + 1.8 * 0.9)%float; VNum 0%float])
             (VArr [VNum 0%float; VNum 1%float; VNum 0%float])
             (VNum 10%float));
     call (Rendering_highlightBlockFace false VUndefined VUndefined);
     call (Entities_tick 30%float); call (emit "tick" 30%float)].
Proof. reflexivity. Qed.

(* ===================================================================== *)
(** ** Picking *)
(* ===================================================================== *)

Section Picking.

Context {Ext : Type} (h : Handler Ext).

Lemma getPlayerEyePosition_run (this : Engine) (s : Ext) :
  let bb := answer h Player_bb_vec s in
  let s1 := after h Player_bb_vec s in
  let p := answer h Player_getPosition s1 in
  run h (getPlayerEyePosition this) s
  = mkRun [call Player_bb_vec; call Player_getPosition]
          (after h Player_getPosition s1)
          (Returned (mkVec3 (v0 p) (v1 p + v1 bb * 0.9)%float (v2 p))).
Proof. reflexivity. Qed.


(** C3. [pick(origin, direction, 0)] returns null for every origin and
    direction and against every world, without a single call to a
    collaborator, so no block is ever looked at; the same holds for -0,
    which is [=== 0] as well.  An absent distance is not zero: the
    traversal runs, with [blockTestDistance] as its distance, and its hit
    is returned. *)
Theorem pick_zero_distance_returns_null (this : Engine) (pos vec : JSVal) (s : Ext) :
  run h (pick this pos vec (VNum 0%float)) s = mkRun [] s (Returned None) /\
  run h (pick this pos vec (VNum (-0)%float)) s = mkRun [] s (Returned None) /\
  forall origin direction : list JSVal,
    let ray := raycast (_traceWorldRayCollision this) (VArr origin) (VArr direction)
                 (blockTestDistance this) in
    let hit := answer h ray s in
    run h (pick this (VArr origin) (VArr direction) VUndefined) s
    = mkRun [call ray] (after h ray s)
            (Returned (if truthy (ray_block hit)
                       then Some {| block := ray_block hit;
                                    position := ray_hitPos hit;
                                    normal := ray_hitNorm hit |}
                       else None)).
Proof.
  repeat split. intros origin direction. cbv zeta.
  unfold pick; cbn. destruct (truthy (ray_block _)); reflexivity.
Qed.

End Picking.



(* ===================================================================== *)
(** ** Targeting *)
(* ===================================================================== *)

Section Targeting.

Context {Ext : Type} (h : Handler Ext).

(** C4. [setBlockTargets] starts with the default [pick()].  On a hit the
    target becomes the componentwise [Math.floor] of the hit position, the
    placement location the componentwise sum of that target and the hit
    normal, and the renderer is asked to highlight the face with that
    target and that normal.  On a miss both locations become null and the
    renderer is asked to switch the highlight off.  Nothing else is called,
    and the call always returns. *)
Theorem setBlockTargets_caches_pick (this : Engine) (s : Ext) :
  let picked := run h (pick this VUndefined VUndefined VUndefined) s in
  let done := run h (setBlockTargets this) s in
  match outcome picked with
  | Returned (Some result) =>
      let loc := map Math_floor (position result) in
      let norm := normal result in
      let highlight :=
        Rendering_highlightBlockFace true (num_array loc) (num_array norm) in
      exists this',
        done = mkRun (trace picked ++ [call highlight])
                     (after h highlight (final picked)) (Returned this') /\
        getTargetBlock this' = num_array loc /\
        getTargetBlockAdjacent this'
        = num_array [ (num_at loc 0 + num_at norm 0)%float;
                      (num_at loc 1 + num_at norm 1)%float;
                      (num_at loc 2 + num_at norm 2)%float ]
  | Returned None =>
      let highlight := Rendering_highlightBlockFace false VUndefined VUndefined in
      exists this',
        done = mkRun (trace picked ++ [call highlight])
                     (after h highlight (final picked)) (Returned this') /\
        getTargetBlock this' = VNull /\
        getTargetBlockAdjacent this' = VNull
  | Thrown _ => False
  end.
Proof.
  cbv zeta. unfold setBlockTargets. rewrite run_bind. unfold run_then.
  destruct (run h (pick this VUndefined VUndefined VUndefined) s)
    as [t s' [[result|]|e]] eqn:Hpick; cbn.
  - eexists. repeat split.
  - eexists. repeat split.
  - unfold pick in Hpick; cbn in Hpick.
    destruct (truthy (ray_block _)) in Hpick; cbn in Hpick; discriminate.
Qed.

End Targeting.

Example setBlockTargets_on_block :
  match outcome (run (Double.handle Double.facing_block)
                     (setBlockTargets Double.fresh_engine) []) with
  | Returned this' =>
      getTargetBlock this' = num_array [5; 5; 5]%float /\
      getTargetBlockAdjacent this' = num_array [5; 5; 6]%float
  | Thrown _ => False
  end.
Proof. split; reflexivity. Qed.

Example setBlockTargets_on_open_sky :
  run (Double.handle Double.open_sky) (setBlockTargets Double.fresh_engine) []
  = mkRun [call Player_bb_vec; call Player_getPosition;
           call Rendering_getCameraVector;
           call (vec3_fromValues 0%float 1%float 0%float);
           call (raycast World_getBlockSolidity_bound
                   (VArr [VNum 0%float; VNum (10 + 1.8 * 0.9)%float; VNum 0%float])
                   (VArr [VNum 0%float; VNum 1%float; VNum 0%float])
                   (VNum 10%float));
           call (Rendering_highlightBlockFace false VUndefined VUndefined)]
          []
          (Returned (set_targets Double.fresh_engine VNull VNull)).
Proof. reflexivity. Qed.

(* ===================================================================== *)
(** ** Block accessors *)
(* ===================================================================== *)

Section Blocks.

Context {Ext : Type} (h : Handler Ext).

(** C6. For every block id and every voxel position, passed as a
    container or as three scalars: [setBlock] makes exactly one call,
    World.setBlockID(id, px, py, pz), and never asks Entities.  [addBlock]
    first asks Entities.isTerrainBlocked(px, py, pz); on a truthy answer
    it returns without an error and without any further call, so no write
    reaches the world; otherwise it goes on exactly as [setBlock] does
    from there. *)
Theorem addBlock_guarded_setBlock
    (this : Engine) (id : JSVal) (shape : Shape) (px py pz : float) (s : Ext) :
  let ask := Entities_isTerrainBlocked (VNum px) (VNum py) (VNum pz) in
  let write := World_setBlockID id (VNum px) (VNum py) (VNum pz) in
  let set := run h (at_position (setBlock this id) shape px py pz) in
  let add := run h (at_position (addBlock this id) shape px py pz) in
  set s = mkRun [call write] (after h write s) (Returned tt) /\
  add s = (if truthy (answer h ask s)
           then mkRun [call ask] (after h ask s) (Returned tt)
           else mkRun (call ask :: trace (set (after h ask s)))
                      (final (set (after h ask s)))
                      (outcome (set (after h ask s)))) /\
  count is_world_write (trace (add s))
  = (if truthy (answer h ask s) then 0 else 1).
Proof.
  cbv zeta. destruct shape; cbn;
    destruct (truthy (answer h _ s)); cbn;
    rewrite ?unit_answer; repeat split.
Qed.

(** C9. For coordinates given as numbers, [getBlock] on the container
    [px, py, pz] (whatever else is passed after it) and [getBlock] on the
    three scalars make the same single call World.getBlockID(px, py, pz)
    and return its answer; [setBlock] on the container and on the scalars
    make the same single call World.setBlockID(id, px, py, pz). *)
Theorem block_accessors_container_or_scalars
    (this : Engine) (id y z : JSVal) (px py pz : float) (s : Ext) :
  let container := VArr [VNum px; VNum py; VNum pz] in
  let read := World_getBlockID (VNum px) (VNum py) (VNum pz) in
  let write := World_setBlockID id (VNum px) (VNum py) (VNum pz) in
  run h (getBlock this container y z) s
  = run h (getBlock this (VNum px) (VNum py) (VNum pz)) s /\
  run h (getBlock this (VNum px) (VNum py) (VNum pz)) s
  = mkRun [call read] (after h read s) (Returned (answer h read s)) /\
  run h (setBlock this id container y z) s
  = run h (setBlock this id (VNum px) (VNum py) (VNum pz)) s /\
  run h (setBlock this id (VNum px) (VNum py) (VNum pz)) s
  = mkRun [call write] (after h write s) (Returned tt).
Proof. cbv zeta. cbn. rewrite ?unit_answer. repeat split. Qed.

End Blocks.

Example addBlock_on_occupied_voxel :
  run (Double.handle Double.occupied)
      (addBlock Double.fresh_engine (VNum 3%float)
         (VArr [VNum 1%float; VNum 2%float; VNum 3%float]) VUndefined VUndefined) []
  = mkRun [call (Entities_isTerrainBlocked (VNum 1%float) (VNum 2%float) (VNum 3%float))]
          [] (Returned tt).
Proof. reflexivity. Qed.

Example addBlock_on_free_voxel :
  final (run (Double.handle Double.open_sky)
           (addBlock Double.fresh_engine (VNum 3%float)
              (VNum 1%float) (VNum 2%float) (VNum 3%float)) [])
  = [(VNum 3%float, VNum 1%float, VNum 2%float, VNum 3%float)].
Proof. reflexivity. Qed.

Example getBlock_without_arguments_throws :
  outcome (run (Double.handle Double.open_sky)
             (getBlock Double.fresh_engine VUndefined VUndefined VUndefined) [])
  = Thrown (TypeError "Cannot read property 'length' of undefined").
Proof. reflexivity. Qed.

(* ===================================================================== *)
(** ** Rendering a frame *)
(* ===================================================================== *)

Section Render.

Context {Ext : Type} (h : Handler Ext).

(** C7. In one call of [render(framePart)], Controls.tickCamera is called
    once when the container has the pointer lock, or does not support the
    pointer lock, or the fire input is held, and is not called when none
    of the three holds (an operand is only asked for when the ones before
    it did not decide).  After that gate, and whatever its result, the
    call stores 0 into dy and into dx, once each, then calls
    Entities.updateEntitiesForRender and Rendering.render, both with
    framePart times the tick rate, and returns. *)
Theorem render_camera_gate (this : Engine) (framePart : float) (s : Ext) :
  let dt := (framePart * _tickRate this)%float in
  let lock := answer h Container_hasPointerLock s in
  let s1 := after h Container_hasPointerLock s in
  let supported := answer h Container_supportsPointerLock s1 in
  let s2 := after h Container_supportsPointerLock s1 in
  let fire := answer h Inputs_state_fire s2 in
  let engaged := truthy lock || negb (truthy supported) || truthy fire in
  let frame := run h (render this framePart) s in
  let gate := run h render_moves_camera s in
  outcome gate = Returned engaged /\
  trace frame
  = trace gate
    ++ (if engaged then [call Controls_tickCamera] else [])
    ++ [call (Inputs_state_set_dy 0%float); call (Inputs_state_set_dx 0%float);
        call (Entities_updateEntitiesForRender dt); call (Rendering_render dt)] /\
  count is_tickCamera (trace gate) = 0 /\
  count is_tickCamera (trace frame) = (if engaged then 1 else 0) /\
  count is_clear_dx (trace frame) = 1 /\
  count is_clear_dy (trace frame) = 1 /\
  outcome frame = Returned tt.
Proof.
  cbv zeta. unfold render, render_moves_camera. cbn.
  destruct (truthy (answer h Container_hasPointerLock s)); cbn;
    [ rewrite ?unit_answer; repeat split | ].
  destruct (truthy (answer h Container_supportsPointerLock _)); cbn;
    [ | rewrite ?unit_answer; repeat split ].
  destruct (truthy (answer h Inputs_state_fire _)); cbn;
    rewrite ?unit_answer; repeat split.
Qed.

End Render.

Example render_without_pointer_lock :
  trace (run (Double.handle Double.open_sky) (render Double.fresh_engine 0.5%float) [])
  = [call Container_hasPointerLock; call Container_supportsPointerLock;
     call Inputs_state_fire;
     call (Inputs_state_set_dy 0%float); call (Inputs_state_set_dx 0%float);
     call (Entities_updateEntitiesForRender 15%float);
     call (Rendering_render 15%float)].
Proof. reflexivity. Qed.

Example render_with_pointer_lock :
  trace (run (Double.handle Double.occupied) (render Double.fresh_engine 1%float) [])
  = [call Container_hasPointerLock; call Controls_tickCamera;
     call (Inputs_state_set_dy 0%float); call (Inputs_state_set_dx 0%float);
     call (Entities_updateEntitiesForRender 30%float);
     call (Rendering_render 30%float)].
Proof. reflexivity. Qed.

(* ===================================================================== *)
(** ** Construction *)
(* ===================================================================== *)

Section Construction.

Context {Ext : Type} (h : Handler Ext).

(** The constructor always returns: the updated module defaults and an
    engine whose fields come from the merged options. *)
Lemma Engine_new_returns (defaults_now : Config) (user : Opts) (s : Ext) :
  let opts := extend defaults_now user in
  outcome (run h (Engine_new defaults_now user) s)
  = Returned (opts,
              {| _tickRate := tickRate opts;
                 blockTestDistance :=
                   if truthy (cfg_blockTestDistance opts)
                   then cfg_blockTestDistance opts else VNum 10%float;
                 _traceWorldRay := World_getBlockID_bound;
                 _traceWorldRayCollision := World_getBlockSolidity_bound;
                 _blockTargetLoc := VUndefined;
                 _blockPlacementLoc := VUndefined |}).
Proof.
  cbv zeta. unfold Engine_new.
  generalize (extend defaults_now user). intro opts. cbn.
  destruct (truthy (playerAutoStep opts)); reflexivity.
Qed.

Lemma Engine_new_created (defaults_now : Config) (user : Opts) (s : Ext) :
  created (trace (run h (Engine_new defaults_now user) s))
  = [Container; Inputs; Registry; World; Rendering; Physics; Controls; Entities].
Proof.
  unfold Engine_new.
  generalize (extend defaults_now user). intro opts. cbn.
  destruct (truthy (playerAutoStep opts)); reflexivity.
Qed.

(** C8, as the code has it.  Whatever the options and the collaborators,
    the constructor creates the eight subsystems once each, in the order
    Container, Inputs, Registry, World, Rendering, Physics, Controls,
    Entities: the Registry is third, still ahead of the World that
    depends on it. *)
Theorem constructor_creates_each_subsystem_once
    (defaults_now : Config) (user : Opts) (s : Ext) :
  let made := created (trace (run h (Engine_new defaults_now user) s)) in
  made = [Container; Inputs; Registry; World; Rendering; Physics; Controls; Entities] /\
  NoDup made /\
  (forall sub : Subsystem, In sub made).
Proof.
  cbv zeta. rewrite Engine_new_created. split; [reflexivity|]. split.
  - repeat (constructor; [cbn; intuition discriminate|]). constructor.
  - intros []; cbn; tauto.
Qed.

End Construction.

(** C8, as the specification words it: on the default options the first
    subsystem created is the Container, not the Registry, so the order
    Registry, Container, Inputs, ... is not the order of construction. *)
Lemma constructor_order_counterexample :
  created (trace (run (Double.handle Double.open_sky)
                    (Engine_new defaults Double.no_options) []))
  <> [Registry; Container; Inputs; World; Rendering; Physics; Controls; Entities].
Proof. cbn. discriminate. Qed.

(* ===================================================================== *)
(** ** The cached targets across operations *)
(* ===================================================================== *)

Section TargetState.

Context {Ext : Type} (h : Handler Ext).

Lemma set_targets_agree (this : Engine) (target placement : JSVal) :
  is_null target = is_null placement ->
  nullish target = nullish placement ->
  targets_agree (set_targets this target placement).
Proof. intros H1 H2. split; assumption. Qed.

Lemma setBlockTargets_agree (this : Engine) (s : Ext) :
  exists this',
    outcome (run h (setBlockTargets this) s) = Returned this' /\
    targets_agree this'.
Proof.
  unfold setBlockTargets, pick; cbn.
  destruct (truthy (ray_block _)); cbn; eexists; split;
    try reflexivity; apply set_targets_agree; reflexivity.
Qed.

Lemma tick_outcome (this : Engine) (s : Ext) :
  outcome (run h (tick this) s)
  = outcome (run h (setBlockTargets this) (before_targeting h (_tickRate this) s)).
Proof.
  destruct (setBlockTargets_agree this (before_targeting h (_tickRate this) s))
    as (this' & Hret & _).
  unfold tick, before_targeting in *. cbn -[setBlockTargets].
  rewrite run_bind. unfold run_then. rewrite Hret. reflexivity.
Qed.

(** A method body that ends by handing back the same object. *)
Lemma engine_after_reader {A : Type} (p : Prog A) (this : Engine) (s : Ext) :
  match outcome (run h (p ;; Ret this) s) with
  | Returned this' => this'
  | Thrown _ => this
  end = this.
Proof.
  rewrite run_bind. unfold run_then.
  destruct (outcome (run h p s)); reflexivity.
Qed.

Lemma engine_after_unchanged (op : Op) (this : Engine) (s : Ext) :
  recomputes_targets op = false ->
  engine_after h op this s = this.
Proof.
  intro Hop. unfold engine_after.
  destruct op; try discriminate Hop; cbn [exec];
    try apply engine_after_reader; reflexivity.
Qed.

Lemma engine_after_agree (op : Op) (this : Engine) (s : Ext) :
  targets_agree this ->
  targets_agree (engine_after h op this s).
Proof.
  intro Hthis.
  destruct (recomputes_targets op) eqn:Hop.
  - unfold engine_after.
    destruct op; try discriminate Hop; cbn [exec].
    + rewrite tick_outcome.
      destruct (setBlockTargets_agree this (before_targeting h (_tickRate this) s))
        as (this' & -> & Hagree). exact Hagree.
    + destruct (setBlockTargets_agree this s) as (this' & -> & Hagree).
      exact Hagree.
  - rewrite engine_after_unchanged by exact Hop. exact Hthis.
Qed.

Lemma run_ops_agree (ops : list Op) (this : Engine) (s : Ext) :
  targets_agree this ->
  targets_agree (fst (run_ops h ops this s)).
Proof.
  revert this s. induction ops as [|op rest IH]; intros this s Hthis; cbn.
  - exact Hthis.
  - apply IH. apply engine_after_agree. exact Hthis.
Qed.

(** What the constructor configured stays as it is: no operation assigns
    the tick rate, the picking distance or the two ray closures. *)
Lemma engine_after_keeps_config (op : Op) (this : Engine) (s : Ext) :
  let this' := engine_after h op this s in
  _tickRate this' = _tickRate this /\
  blockTestDistance this' = blockTestDistance this /\
  _traceWorldRay this' = _traceWorldRay this /\
  _traceWorldRayCollision this' = _traceWorldRayCollision this.
Proof.
  cbv zeta. destruct (recomputes_targets op) eqn:Hop.
  - unfold engine_after.
    destruct op; try discriminate Hop; cbn [exec]; rewrite ?tick_outcome;
      match goal with
      | |- context [run h (setBlockTargets this) ?s'] =>
          destruct (setBlockTargets_returns h this s') as (t & p & ->)
      end; repeat split.
  - rewrite engine_after_unchanged by exact Hop. repeat split.
Qed.

Lemma run_ops_keeps_collision_ray (ops : list Op) (this : Engine) (s : Ext) :
  _traceWorldRayCollision (fst (run_ops h ops this s)) = _traceWorldRayCollision this.
Proof.
  revert this s. induction ops as [|op rest IH]; intros this s; cbn.
  - reflexivity.
  - rewrite IH. apply engine_after_keeps_config.
Qed.

(** C5. On the engine the constructor hands out, after any sequence of
    public operations against any collaborators, [getTargetBlock()] and
    [getTargetBlockAdjacent()] are null together or non-null together
    (under [=== null] and under [== null] alike).  Every operation other
    than [setBlockTargets] and the [tick] that calls it leaves the engine
    object, and so both cached locations, exactly as they were. *)
Theorem target_state_invariant (defaults_now : Config) (user : Opts) (s0 : Ext) :
  match outcome (run h (Engine_new defaults_now user) s0) with
  | Returned (_, this0) =>
      forall (ops : list Op) (s : Ext),
        targets_agree (fst (run_ops h ops this0 s))
  | Thrown _ => False
  end /\
  forall (op : Op) (this : Engine) (s : Ext),
    recomputes_targets op = false ->
    getTargetBlock (engine_after h op this s) = getTargetBlock this /\
    getTargetBlockAdjacent (engine_after h op this s) = getTargetBlockAdjacent this.
Proof.
  split.
  - pose proof (Engine_new_returns h defaults_now user s0) as Hnew.
    cbv zeta in Hnew. rewrite Hnew.
    intros ops s. apply run_ops_agree. split; reflexivity.
  - intros op this s Hop. rewrite engine_after_unchanged by exact Hop.
    split; reflexivity.
Qed.

End TargetState.

(** A frame rendered in front of a block leaves the targets of a fresh
    engine undefined, as they were. *)
Lemma target_state_invariant_witness :
  getTargetBlock
    (engine_after (Double.handle Double.facing_block) (Op_render 0.5%float)
       Double.fresh_engine [])
  = VUndefined /\
  getTargetBlockAdjacent
    (engine_after (Double.handle Double.facing_block) (Op_render 0.5%float)
       Double.fresh_engine [])
  = VUndefined.
Proof.
  exact (proj2 (target_state_invariant (Double.handle Double.facing_block)
                  defaults Double.no_options [])
           (Op_render 0.5%float) Double.fresh_engine [] eq_refl).
Defined.

Example session_targets :
  let session := [Op_render 0.5%float; Op_tick;
                  Op_addBlock (VNum 2%float) (VNum 5%float) (VNum 5%float) (VNum 6%float);
                  Op_getBlock VUndefined VUndefined VUndefined;
                  Op_render 1%float] in
  let this := fst (run_ops (Double.handle Double.facing_block) session
                     Double.fresh_engine []) in
  getTargetBlock this = num_array [5; 5; 5]%float /\
  getTargetBlockAdjacent this = num_array [5; 5; 6]%float.
Proof. split; reflexivity. Qed.

(* ===================================================================== *)
(** ** The configured picking distance *)
(* ===================================================================== *)

Section BlockTestDistance.

Context {Ext : Type} (h : Handler Ext).


End BlockTestDistance.



Example blockTestDistance_samples :
  map (fun d =>
         match outcome (run (Double.handle Double.open_sky)
                          (Engine_new defaults (Double.with_blockTestDistance d)) []) with
         | Returned (_, this) => blockTestDistance this
         | Thrown _ => VUndefined
         end)
      [VUndefined; VNull; VNum 0%float; VNum nan; VBool false; VStr "";
       VNum 25%float]
  = [VNum 10%float; VNum 10%float; VNum 10%float; VNum 10%float; VNum 10%float;
     VNum 10%float; VNum 25%float].
Proof. reflexivity. Qed.

(** [extend(defaults, opts)] writes into [defaults]: an option given to one
    construction is still in the defaults the next construction starts
    from. *)
Example defaults_keep_earlier_options :
  match outcome (run (Double.handle Double.open_sky)
                   (Engine_new defaults (Double.with_blockTestDistance (VNum 25%float)))
                   []) with
  | Returned (defaults', _) =>
      match outcome (run (Double.handle Double.open_sky)
                       (Engine_new defaults' Double.no_options) []) with
      | Returned (_, second) => blockTestDistance second = VNum 25%float
      | Thrown _ => False
      end
  | Thrown _ => False
  end.
Proof. reflexivity. Qed.

(* ===================================================================== *)
(** ** Further properties of the engine *)
(* ===================================================================== *)

Ltac split_ifs :=
  repeat (cbn;
          match goal with
          | |- context [match ?b with true => _ | false => _ end] =>
              destruct b eqn:?
          end).

Section Construction_log.

Context {Ext : Type} (h : Handler Ext).

(** X1. The whole call log of the constructor.  Every factory receives
    the same merged options; the camera accessor is wired between the
    creation of Controls and of Entities; the one entity added is the
    player, from the merged start, width and height, without mesh or mesh
    offset, with physics, both collisions and the shadow switched on; its
    body gets gravity multiplier 2 and the merged autoStep flag, and the
    step callback exactly when that flag is truthy; the debug hooks on
    window and on the inputs are installed whatever the options. *)
Theorem constructor_call_log (defaults_now : Config) (user : Opts) (s : Ext) :
  let opts := extend defaults_now user in
  trace (run h (Engine_new defaults_now user) s)
  = [call (create Container opts); call (create Inputs opts);
     call (create Registry opts); call (create World opts);
     call (create Rendering opts); call (create Physics opts);
     call (create Controls opts); call Controls_setCameraAccessor;
     call (create Entities opts);
     call (Entities_add (playerStart opts) (playerWidth opts) (playerHeight opts)
             VNull VNull true true true true);
     call (Player_body_set_gravityMultiplier 2%float);
     call (Player_body_set_autoStep (playerAutoStep opts))]
    ++ (if truthy (playerAutoStep opts) then [call Player_body_set_onStep] else [])
    ++ [call Controls_setTarget;
        call (Window_set "noa"); call (Window_set "ndarray");
        call (Window_set "vec3");
        call (Inputs_bind "debug" "Z"); call (Inputs_down_on "debug")].
Proof.
  cbv zeta. unfold Engine_new.
  generalize (extend defaults_now user). intro opts. cbn.
  destruct (truthy (playerAutoStep opts)); reflexivity.
Qed.


End Construction_log.

Section Sessions.

Context {Ext : Type} (h : Handler Ext).

Lemma run_ops_app (ops1 ops2 : list Op) (this : Engine) (s : Ext) :
  run_ops h (ops1 ++ ops2) this s
  = run_ops h ops2 (fst (run_ops h ops1 this s)) (snd (run_ops h ops1 this s)).
Proof.
  revert this s. induction ops1 as [|op rest IH]; intros this s; cbn.
  - reflexivity.
  - apply IH.
Qed.

Lemma run_ops_readers (ops : list Op) (this : Engine) (s : Ext) :
  existsb recomputes_targets ops = false ->
  fst (run_ops h ops this s) = this.
Proof.
  revert this s. induction ops as [|op rest IH]; intros this s Hops; cbn in *.
  - reflexivity.
  - apply orb_false_iff in Hops as [Hop Hrest].
    rewrite engine_after_unchanged by exact Hop. apply IH. exact Hrest.
Qed.

Lemma set_targets_computed (this : Engine) (s : Ext) :
  exists this',
    outcome (run h (setBlockTargets this) s) = Returned this' /\
    targets_computed this'.
Proof.
  unfold setBlockTargets, pick; cbn.
  destruct (truthy (ray_block _)); cbn; eexists; (split; [reflexivity|]).
  - right. do 2 eexists. repeat split.
  - left. split; reflexivity.
Qed.

Lemma engine_after_computed (op : Op) (this : Engine) (s : Ext) :
  recomputes_targets op = true \/ targets_computed this ->
  targets_computed (engine_after h op this s).
Proof.
  intros Hcase. destruct (recomputes_targets op) eqn:Hop.
  - unfold engine_after.
    destruct op; try discriminate Hop; cbn [exec]; rewrite ?tick_outcome;
      match goal with
      | |- context [run h (setBlockTargets this) ?s'] =>
          destruct (set_targets_computed this s') as (this' & -> & Hc)
      end; exact Hc.
  - rewrite engine_after_unchanged by exact Hop.
    destruct Hcase as [Habs | Hc]; [discriminate Habs | exact Hc].
Qed.

Lemma run_ops_computed (ops : list Op) (this : Engine) (s : Ext) :
  existsb recomputes_targets ops = true \/ targets_computed this ->
  targets_computed (fst (run_ops h ops this s)).
Proof.
  revert this s. induction ops as [|op rest IH]; intros this s Hcase; cbn in *.
  - destruct Hcase as [Habs | Hc]; [discriminate Habs | exact Hc].
  - apply IH. destruct (recomputes_targets op) eqn:Hop; cbn in Hcase.
    + right. apply engine_after_computed. left. exact Hop.
    + destruct Hcase as [Hrest | Hc]; [left; exact Hrest|].
      right. apply engine_after_computed. right. exact Hc.
Qed.

(** X2. On a constructed engine, as long as no [tick] and no
    [setBlockTargets] has run, [getTargetBlock()] and
    [getTargetBlockAdjacent()] return undefined (not null), whatever other
    methods were called.  Once one of the two has run in a session, both are
    never undefined again: they are null together, or the target is an
    array of numbers and the placement an array of three numbers. *)
Theorem targets_undefined_until_first_tick
    (defaults_now : Config) (user : Opts) (s0 : Ext) :
  match outcome (run h (Engine_new defaults_now user) s0) with
  | Returned (_, this0) =>
      forall (ops : list Op) (s : Ext),
        let this := fst (run_ops h ops this0 s) in
        (existsb recomputes_targets ops = false ->
         getTargetBlock this = VUndefined /\
         getTargetBlockAdjacent this = VUndefined) /\
        (existsb recomputes_targets ops = true -> targets_computed this)
  | Thrown _ => False
  end.
Proof.
  pose proof (Engine_new_returns h defaults_now user s0) as Hnew.
  cbv zeta in Hnew. rewrite Hnew. intros ops s. cbv zeta. split.
  - intro Hops. rewrite run_ops_readers by exact Hops. split; reflexivity.
  - intro Hops. apply run_ops_computed. left. exact Hops.
Qed.

Lemma run_ops_keeps_config (ops : list Op) (this : Engine) (s : Ext) :
  let this' := fst (run_ops h ops this s) in
  _tickRate this' = _tickRate this /\
  blockTestDistance this' = blockTestDistance this /\
  _traceWorldRay this' = _traceWorldRay this /\
  _traceWorldRayCollision this' = _traceWorldRayCollision this.
Proof.
  cbv zeta. revert this s.
  induction ops as [|op rest IH]; intros this s; cbn.
  - repeat split.
  - destruct (IH (engine_after h op this s) (final (run h (exec op this) s)))
      as (H1 & H2 & H3 & H4).
    destruct (engine_after_keeps_config h op this s) as (K1 & K2 & K3 & K4).
    cbv zeta in *. rewrite H1, H2, H3, H4. auto.
Qed.

(** X11. No method assigns the configuration: after any session the tick
    rate, the picking distance and the two ray closures of the engine
    object are the ones it started with, so the [tick] that follows still
    opens with World.tick at the original tick rate. *)
Theorem configuration_fixed_for_lifetime (ops : list Op) (this : Engine) (s s' : Ext) :
  let this' := fst (run_ops h ops this s) in
  _tickRate this' = _tickRate this /\
  blockTestDistance this' = blockTestDistance this /\
  _traceWorldRay this' = _traceWorldRay this /\
  _traceWorldRayCollision this' = _traceWorldRayCollision this /\
  hd_error (trace (run h (tick this') s')) = Some (call (World_tick (_tickRate this))).
Proof.
  cbv zeta.
  destruct (run_ops_keeps_config ops this s) as (H1 & H2 & H3 & H4).
  cbv zeta in *. repeat split; try assumption.
  unfold tick. cbn -[setBlockTargets]. rewrite H1. reflexivity.
Qed.

Lemma fallback_truthy (v : JSVal) :
  truthy (if truthy v then v else VNum 10%float) = true.
Proof. destruct (truthy v) eqn:Hv; [exact Hv | reflexivity]. Qed.

(** X3. Picking cannot be configured away.  On a constructed engine, after
    any session, [blockTestDistance] is truthy, and a [pick()] without
    arguments starts exactly one traversal, through the closure bound to
    World.getBlockSolidity, with that distance. *)
Theorem default_pick_always_traverses
    (defaults_now : Config) (user : Opts) (s0 : Ext) :
  match outcome (run h (Engine_new defaults_now user) s0) with
  | Returned (_, this0) =>
      forall (ops : list Op) (s s' : Ext),
        let this := fst (run_ops h ops this0 s) in
        let log := trace (run h (pick this VUndefined VUndefined VUndefined) s') in
        truthy (blockTestDistance this) = true /\
        count is_raycast log = 1 /\
        exists origin direction,
          last log (call Controls_tickCamera)
          = call (raycast World_getBlockSolidity_bound origin direction
                    (blockTestDistance this))
  | Thrown _ => False
  end.
Proof.
  pose proof (Engine_new_returns h defaults_now user s0) as Hnew.
  cbv zeta in Hnew. rewrite Hnew. intros ops s s'. cbv zeta.
  match goal with
  | |- context [run_ops h ops ?e s] =>
      destruct (run_ops_keeps_config ops e s) as (_ & Hd & _ & Hc);
      cbv zeta in Hd, Hc;
      change (blockTestDistance e)
        with (if truthy (cfg_blockTestDistance (extend defaults_now user))
              then cfg_blockTestDistance (extend defaults_now user)
              else VNum 10%float) in Hd;
      change (_traceWorldRayCollision e) with World_getBlockSolidity_bound in Hc;
      revert Hd Hc; generalize (fst (run_ops h ops e s))
  end.
  intros this Hd Hc. split.
  - rewrite Hd. apply fallback_truthy.
  - unfold pick. rewrite Hc. cbn.
    destruct (truthy (ray_block _)); cbn; split; try reflexivity;
      do 2 eexists; reflexivity.
Qed.

End Sessions.

(** A tick in front of a block, then a frame: both targets are arrays. *)
Lemma targets_undefined_until_first_tick_witness :
  targets_computed
    (fst (run_ops (Double.handle Double.facing_block)
            [Op_tick; Op_render 0.5%float]
            {| _tickRate := 30%float;
               blockTestDistance := VNum 10%float;
               _traceWorldRay := World_getBlockID_bound;
               _traceWorldRayCollision := World_getBlockSolidity_bound;
               _blockTargetLoc := VUndefined;
               _blockPlacementLoc := VUndefined |} [])).
Proof.
  pose proof (targets_undefined_until_first_tick
                (Double.handle Double.facing_block) defaults Double.no_options [])
    as H.
  cbn in H.
  exact (proj2 (H [Op_tick; Op_render 0.5%float] []) eq_refl).
Defined.

Section Calls_per_operation.

Context {Ext : Type} (h : Handler Ext).

Ltac unfold_methods :=
  unfold tick, render, render_moves_camera, getBlock, setBlock, addBlock,
    getPlayerPosition, getPlayerEyePosition, getCameraVector, setPlayerMesh,
    setBlockTargets, pick, coords, get_length.

(** X7. World.setBlockID is reached from [setBlock] and [addBlock] only,
    and at most once per call; [tick], [render], [pick], the targeting and
    every accessor never write a block.  Entities.isTerrainBlocked is asked
    by [addBlock] only. *)
Theorem block_writes_per_operation (op : Op) (this : Engine) (s : Ext) :
  let log := trace (run h (exec op this) s) in
  count is_world_write log <= (if writes_blocks op then 1 else 0) /\
  count is_entity_query log
  <= match op with Op_addBlock _ _ _ _ => 1 | _ => 0 end.
Proof.
  cbv zeta. destruct op; cbn [exec writes_blocks]; unfold_methods;
    try match goal with
        | x : JSVal |- context [match ?x with VUndefined => _ | _ => _ end] =>
            destruct x
        end;
    split_ifs; split; cbn; lia.
Qed.

(** X8. Traversals per call: one in [tick] and in [setBlockTargets], one
    in [pick] unless its distance is [=== 0], none anywhere else (a frame
    never re-targets).  Every traversal goes through the collision closure
    of the engine object; the closure bound to World.getBlockID, which the
    constructor also builds, is called by no method. *)
Theorem traversals_per_operation (op : Op) (this : Engine) (s : Ext) :
  let log := trace (run h (exec op this) s) in
  count is_raycast log = traversals op /\
  forallb (traverses_through (_traceWorldRayCollision this)) log = true.
Proof.
  cbv zeta. destruct op; cbn [exec traversals]; unfold_methods;
    try match goal with
        | x : JSVal |- context [match ?x with VUndefined => _ | _ => _ end] =>
            destruct x
        end;
    split_ifs; split; cbn;
    try reflexivity;
    destruct (_traceWorldRayCollision this); reflexivity.
Qed.

(** X9. A tick neither moves the camera nor consumes mouse motion: its log
    holds no Controls.tickCamera and no store into dx or dy, so motion that
    arrives between frames is still there for the next [render], however
    many ticks run in between. *)
Theorem tick_leaves_mouse_motion (this : Engine) (s : Ext) :
  let log := trace (run h (tick this) s) in
  count is_tickCamera log = 0 /\
  count is_clear_dx log = 0 /\
  count is_clear_dy log = 0.
Proof.
  cbv zeta. unfold_methods. split_ifs; repeat split.
Qed.

(** X10. Targets are recomputed from scratch.  Whatever the two cached
    locations hold, every method makes the same calls and leaves the
    collaborators in the same state, and [tick] and [setBlockTargets] end
    with the same engine object: a stale target never survives a tick. *)
Theorem cached_targets_never_read
    (op : Op) (this : Engine) (target placement : JSVal) (s : Ext) :
  let stale := run h (exec op (set_targets this target placement)) s in
  let plain := run h (exec op this) s in
  trace stale = trace plain /\
  final stale = final plain /\
  (if recomputes_targets op then outcome stale = outcome plain
   else engine_after h op (set_targets this target placement) s
        = set_targets this target placement).
Proof.
  cbv zeta. destruct op; cbn [recomputes_targets]; repeat split;
    try (apply (engine_after_unchanged h); reflexivity);
    cbn [exec]; unfold_methods;
    try match goal with
        | x : JSVal |- context [match ?x with VUndefined => _ | _ => _ end] =>
            destruct x
        end;
    split_ifs; reflexivity.
Qed.

(** X12. Falsy arguments count as absent.  A [pick] whose origin and
    direction are falsy (null, say) and whose distance is falsy without
    being [=== 0] (null, NaN, false, the empty string) runs exactly as
    [pick()] without arguments. *)
Theorem pick_falsy_arguments (this : Engine) (pos vec dist : JSVal) (s : Ext) :
  truthy pos = false ->
  truthy vec = false ->
  truthy dist = false ->
  strict_eq_zero dist = false ->
  run h (pick this pos vec dist) s
  = run h (pick this VUndefined VUndefined VUndefined) s.
Proof.
  intros Hpos Hvec Hdist Hzero. unfold pick.
  rewrite Hpos, Hvec, Hdist, Hzero. reflexivity.
Qed.

(** X13. Which calls can fail.  Against collaborators that answer, a
    method call throws exactly when it is [getBlock], [setBlock] or
    [addBlock] with an undefined or null first argument; [tick], [render],
    [pick], the targeting and the other accessors always return. *)
Theorem operations_that_throw (op : Op) (this : Engine) (s : Ext) :
  match outcome (run h (exec op this) s) with
  | Returned _ => throws op = false
  | Thrown _ => throws op = true
  end.
Proof.
  destruct op; cbn [exec throws]; unfold_methods;
    try match goal with
        | x : JSVal |- context [match ?x with VUndefined => _ | _ => _ end] =>
            destruct x
        end;
    split_ifs; reflexivity.
Qed.

(** X5. Called without a position (the first argument undefined or null),
    [getBlock], [setBlock] and [addBlock] throw a TypeError before any call
    is made: the world is not read or written and Entities is not asked. *)
Theorem block_accessors_throw_without_position
    (this : Engine) (id x y z : JSVal) (s : Ext) :
  nullish x = true ->
  let thrown A : Run Ext A :=
    mkRun [] s (Thrown (TypeError "Cannot read property 'length' of undefined")) in
  run h (getBlock this x y z) s = thrown JSVal /\
  run h (setBlock this id x y z) s = thrown unit /\
  run h (addBlock this id x y z) s = thrown unit.
Proof.
  intro Hx. cbv zeta. destruct x; try discriminate Hx; repeat split.
Qed.

(** X6. Containers of other sizes.  A container of one to three elements
    is read by index, so a missing coordinate reaches the world as
    undefined and the scalars passed after the container are ignored.  An
    empty container has length 0 and is taken for a scalar: it is itself
    passed as the x coordinate, followed by the other two arguments. *)
Theorem block_accessors_short_container
    (this : Engine) (id y z : JSVal) (elems : list JSVal) (s : Ext) :
  0 < List.length elems <= 3 ->
  let a0 := nth 0 elems VUndefined in
  let a1 := nth 1 elems VUndefined in
  let a2 := nth 2 elems VUndefined in
  trace (run h (getBlock this (VArr elems) y z) s)
  = [call (World_getBlockID a0 a1 a2)] /\
  trace (run h (setBlock this id (VArr elems) y z) s)
  = [call (World_setBlockID id a0 a1 a2)] /\
  trace (run h (getBlock this (VArr []) y z) s)
  = [call (World_getBlockID (VArr []) y z)] /\
  trace (run h (setBlock this id (VArr []) y z) s)
  = [call (World_setBlockID id (VArr []) y z)].
Proof.
  intros [Hlo Hhi]. cbv zeta.
  destruct elems as [|e0 [|e1 [|e2 [|e3 rest]]]]; cbn in Hlo, Hhi; try lia;
    repeat split.
Qed.

End Calls_per_operation.

(** pick(null, null, NaN) on a fresh engine in front of a block. *)
Lemma pick_falsy_arguments_witness :
  run (Double.handle Double.facing_block)
      (pick Double.fresh_engine VNull VNull (VNum nan)) []
  = run (Double.handle Double.facing_block)
      (pick Double.fresh_engine VUndefined VUndefined VUndefined) [].
Proof.
  exact (pick_falsy_arguments (Double.handle Double.facing_block)
           Double.fresh_engine VNull VNull (VNum nan) []
           eq_refl eq_refl eq_refl eq_refl).
Defined.

(** addBlock(3) without a position, in an open world. *)
Lemma block_accessors_throw_without_position_witness :
  run (Double.handle Double.open_sky)
      (addBlock Double.fresh_engine (VNum 3%float) VUndefined VUndefined VUndefined) []
  = mkRun [] [] (Thrown (TypeError "Cannot read property 'length' of undefined")).
Proof.
  exact (proj2 (proj2 (block_accessors_throw_without_position
                         (Double.handle Double.open_sky) Double.fresh_engine
                         (VNum 3%float) VUndefined VUndefined VUndefined []
                         eq_refl))).
Defined.

(** getBlock([4, 7]) reads the voxel (4, 7, undefined). *)
Lemma block_accessors_short_container_witness :
  trace (run (Double.handle Double.open_sky)
           (getBlock Double.fresh_engine (VArr [VNum 4%float; VNum 7%float])
              VUndefined VUndefined) [])
  = [call (World_getBlockID (VNum 4%float) (VNum 7%float) VUndefined)].
Proof.
  exact (proj1 (block_accessors_short_container
                  (Double.handle Double.open_sky) Double.fresh_engine
                  VUndefined VUndefined VUndefined
                  [VNum 4%float; VNum 7%float] []
                  (conj (le_S 1 1 (le_n 1)) (le_S 2 2 (le_n 2))))).
Defined.
